(** * pdfjs-annotation-extension: icon synthesis and the truncation widget

    A shallow embedding of [src/utils/documentIcon.ts] ([createSvgIcon],
    [createDocumentIcon]) and of [src/components/paragraph/index.tsx]
    ([ExpandableParagraph]), with the properties of the specification stated
    over it.

    Conventions of the embedding.
    - A JavaScript string is a [string]; the character of number [n] stands
      for the code unit [n] (code units 0 to 255).
    - A JavaScript number is a [number]: NaN, the two infinities, negative
      zero, or a finite value carried as an exact rational ([Fin 0] is +0).
      Special values follow ECMAScript; finite arithmetic is exact, that is,
      binary64 rounding, overflow and underflow are not modelled.
    - [null] and [undefined] are [None].
    - The DOM parser and the network are external: a parsed document is a
      tree of [element]s, and [parseFromString] and [fetch] are parameters. *)

From Stdlib Require Import QArith Qcanon ZArith String Ascii List Bool Lia.
From stdpp Require Import gmap strings.
Import ListNotations.

Set Warnings "-register-all".

(** ** ECMAScript values used by the two files *)

Module JS.

Local Open Scope Qc_scope.

Inductive number : Type :=
  | NaN
  | PInf
  | NInf
  | NZero
  | Fin (q : Qc).

(** The integer [z] as a rational, and as a number. *)
Definition qz (z : Z) : Qc := Q2Qc (inject_Z z).
Definition of_Z (z : Z) : number := Fin (qz z).
Definition of_nat (n : nat) : number := of_Z (Z.of_nat n).

Definition qc_is_zero (q : Qc) : bool :=
  match Qccompare q 0 with Eq => true | _ => false end.

Definition qc_is_neg (q : Qc) : bool :=
  match Qccompare q 0 with Lt => true | _ => false end.

(** The sign bit ([true] for negative); irrelevant for NaN. *)
Definition sgn (x : number) : bool :=
  match x with
  | NaN | PInf => false
  | NInf | NZero => true
  | Fin q => qc_is_neg q
  end.

Definition is_zero (x : number) : bool :=
  match x with
  | NZero => true
  | Fin q => qc_is_zero q
  | _ => false
  end.

Definition is_inf (x : number) : bool :=
  match x with PInf | NInf => true | _ => false end.


Definition signed_zero (s : bool) : number := if s then NZero else Fin 0.
Definition signed_inf (s : bool) : number := if s then NInf else PInf.

(** The rational value of a finite number (both zeros are 0). *)
Definition fin_val (x : number) : Qc :=
  match x with Fin q => q | _ => 0 end.

(** Unary minus. *)
Definition neg (x : number) : number :=
  match x with
  | NaN => NaN
  | PInf => NInf
  | NInf => PInf
  | NZero => Fin 0
  | Fin q => if qc_is_zero q then NZero else Fin (- q)
  end.

(** Number::add. *)
Definition add (x y : number) : number :=
  match x, y with
  | NaN, _ | _, NaN => NaN
  | PInf, NInf | NInf, PInf => NaN
  | PInf, _ | _, PInf => PInf
  | NInf, _ | _, NInf => NInf
  | NZero, NZero => NZero
  | NZero, Fin q | Fin q, NZero => Fin q
  | Fin a, Fin b => Fin (a + b)
  end.


(** Number::multiply. *)
Definition mul (x y : number) : number :=
  match x, y with
  | NaN, _ | _, NaN => NaN
  | _, _ =>
      let s := xorb (sgn x) (sgn y) in
      if is_inf x || is_inf y then
        if is_zero x || is_zero y then NaN else signed_inf s
      else if is_zero x || is_zero y then signed_zero s
      else Fin (fin_val x * fin_val y)
  end.

(** Number::divide. *)
Definition div (x y : number) : number :=
  match x, y with
  | NaN, _ | _, NaN => NaN
  | _, _ =>
      let s := xorb (sgn x) (sgn y) in
      if is_inf x then (if is_inf y then NaN else signed_inf s)
      else if is_inf y then signed_zero s
      else if is_zero y then (if is_zero x then NaN else signed_inf s)
      else if is_zero x then signed_zero s
      else Fin (fin_val x / fin_val y)
  end.

(** Numeric comparison; [None] when an operand is NaN. *)
Definition cmp (x y : number) : option comparison :=
  match x, y with
  | NaN, _ | _, NaN => None
  | PInf, PInf | NInf, NInf => Some Eq
  | PInf, _ | _, NInf => Some Gt
  | NInf, _ | _, PInf => Some Lt
  | _, _ => Some (Qccompare (fin_val x) (fin_val y))
  end.

(** [x < y], [x > y], [x <= y], [x >= y] *)
Definition ltb (x y : number) : bool :=
  match cmp x y with Some Lt => true | _ => false end.
Definition gtb (x y : number) : bool := ltb y x.

(** Math.max of two arguments: NaN if either is, and +0 above -0. *)
Definition Math_max (x y : number) : number :=
  match cmp x y with
  | None => NaN
  | Some Lt => y
  | Some Gt => x
  | Some Eq => match x with NZero => y | _ => x end
  end.

(** ToBoolean on numbers and on strings. *)
Definition truthy_number (x : number) : bool :=
  match x with
  | NaN | NZero => false
  | Fin q => negb (qc_is_zero q)
  | PInf | NInf => true
  end.

Definition truthy_string (s : string) : bool :=
  match s with EmptyString => false | String _ _ => true end.

(** *** Scanning numeric literals *)

(** WhiteSpace and LineTerminator code units below 256: TAB, LF, VT, FF, CR,
    SP and NBSP. The same set serves [trim], [\s] and StrWhiteSpaceChar. *)
Definition is_whitespace (c : ascii) : bool :=
  match N_of_ascii c with
  | 9 | 10 | 11 | 12 | 13 | 32 | 160 => true
  | _ => false
  end%N.

Fixpoint trimStart (s : list ascii) : list ascii :=
  match s with
  | c :: s' => if is_whitespace c then trimStart s' else s
  | [] => []
  end.

Definition trim (s : list ascii) : list ascii :=
  rev (trimStart (rev (trimStart s))).

Definition digit_of (base : Z) (c : ascii) : option Z :=
  let n := Z.of_N (N_of_ascii c) in
  let d :=
    if ((48 <=? n) && (n <=? 57))%Z then Some (n - 48)%Z
    else if ((97 <=? n) && (n <=? 102))%Z then Some (n - 87)%Z
    else if ((65 <=? n) && (n <=? 70))%Z then Some (n - 55)%Z
    else None in
  match d with
  | Some v => if (v <? base)%Z then Some v else None
  | None => None
  end.

(** The longest run of digits at the head of [s], accumulated onto [acc]:
    the value, the number of digits read, and the rest. *)
Fixpoint scan_digits (base : Z) (acc : Z) (cnt : nat) (s : list ascii)
  : Z * nat * list ascii :=
  match s with
  | c :: s' =>
      match digit_of base c with
      | Some d => scan_digits base (acc * base + d)%Z (S cnt) s'
      | None => (acc, cnt, s)
      end
  | [] => (acc, cnt, s)
  end.

(** [m * 10^e] as an exact rational. *)
Definition decimal_value (m e : Z) : Qc :=
  if (0 <=? e)%Z then Q2Qc (inject_Z (m * 10 ^ e))
  else Q2Qc (Qmake m (Z.to_pos (10 ^ (- e)))).

(** ExponentPart, if a well-formed one is at the head of [s]. *)
Definition scan_exponent (s : list ascii) : Z * list ascii :=
  match s with
  | c :: s1 =>
      if (Ascii.eqb c "e" || Ascii.eqb c "E")%char then
        let '(negative, s2) :=
          match s1 with
          | "+"%char :: t => (false, t)
          | "-"%char :: t => (true, t)
          | _ => (false, s1)
          end in
        let '(e, n, s3) := scan_digits 10 0 0 s2 in
        match n with
        | O => (0%Z, s)
        | S _ => ((if negative then - e else e)%Z, s3)
        end
      else (0%Z, s)
  | [] => (0%Z, s)
  end.

Fixpoint starts_with (p s : list ascii) : option (list ascii) :=
  match p, s with
  | [], _ => Some s
  | a :: p', b :: s' => if Ascii.eqb a b then starts_with p' s' else None
  | _ :: _, [] => None
  end.

(** The longest prefix of [s] that is a StrUnsignedDecimalLiteral:
    [Infinity], [digits . digits? exp?], [. digits exp?] or [digits exp?]. *)
Definition scan_unsigned (s : list ascii) : option (number * list ascii) :=
  match starts_with (list_ascii_of_string "Infinity") s with
  | Some rest => Some (PInf, rest)
  | None =>
      let '(i, ni, s1) := scan_digits 10 0 0 s in
      match s1 with
      | "."%char :: s2 =>
          let '(m, nf, s3) := scan_digits 10 i 0 s2 in
          match ni, nf with
          | O, O => None
          | _, _ =>
              let '(e, s4) := scan_exponent s3 in
              Some (Fin (decimal_value m (e - Z.of_nat nf)), s4)
          end
      | _ =>
          match ni with
          | O => None
          | S _ =>
              let '(e, s4) := scan_exponent s1 in
              Some (Fin (decimal_value i e), s4)
          end
      end
  end.

(** The longest prefix that is a StrDecimalLiteral (optional sign). *)
Definition scan_decimal (s : list ascii) : option (number * list ascii) :=
  match s with
  | "+"%char :: t => scan_unsigned t
  | "-"%char :: t =>
      match scan_unsigned t with
      | Some (v, rest) => Some (neg v, rest)
      | None => None
      end
  | _ => scan_unsigned s
  end.

(** NonDecimalIntegerLiteral: [0x], [0o] or [0b] and at least one digit,
    nothing else. *)
Definition scan_nondecimal (s : list ascii) : option number :=
  match s with
  | "0"%char :: p :: t =>
      let radix :=
        if (Ascii.eqb p "x" || Ascii.eqb p "X")%char then Some 16%Z
        else if (Ascii.eqb p "o" || Ascii.eqb p "O")%char then Some 8%Z
        else if (Ascii.eqb p "b" || Ascii.eqb p "B")%char then Some 2%Z
        else None in
      match radix with
      | Some b =>
          match scan_digits b 0 0 t with
          | (v, S _, []) => Some (of_Z v)
          | _ => None
          end
      | None => None
      end
  | _ => None
  end.

(** [Number(s)] on a string (StringToNumber). *)
Definition Number (s : string) : number :=
  let t := trim (list_ascii_of_string s) in
  match t with
  | [] => Fin 0
  | _ =>
      match scan_nondecimal t with
      | Some v => v
      | None =>
          match scan_decimal t with
          | Some (v, []) => v
          | _ => NaN
          end
      end
  end.

(** [parseFloat(s)]: leading white space is skipped, then the longest
    decimal literal is read and whatever follows is ignored. *)
Definition parseFloat (s : string) : number :=
  match scan_decimal (trimStart (list_ascii_of_string s)) with
  | Some (v, _) => v
  | None => NaN
  end.

(** *** [String.prototype.split] with the separator [/\s+|,/]

    The pattern matches, at a position, a maximal run of white space or else
    a single comma; it never matches the empty string. [split] cuts the
    string at every match found scanning left to right, keeping the empty
    pieces between adjacent matches. [in_ws] records that the previous
    character belonged to a white-space match, which the next white-space
    character extends. *)
Fixpoint split_loop (in_ws : bool) (cur : list ascii) (s : list ascii)
  : list string :=
  match s with
  | [] => [string_of_list_ascii (rev cur)]
  | c :: s' =>
      if is_whitespace c then
        if in_ws then split_loop true [] s'
        else string_of_list_ascii (rev cur) :: split_loop true [] s'
      else if Ascii.eqb c ","%char then
        string_of_list_ascii (rev cur) :: split_loop false [] s'
      else split_loop false (c :: cur) s'
  end.

Definition split_ws_or_comma (s : list ascii) : list string :=
  split_loop false [] s.

End JS.

(** ** The parsed document (external DOM parser's result) *)

Module DOM.

(** An element: its local name, its attributes by qualified name, and its
    child elements in document order. Text nodes play no part. *)
Inductive element : Type :=
  | Element (name : string) (attrs : gmap string string)
            (kids : list element).

Definition localName (e : element) : string :=
  match e with Element n _ _ => n end.

Definition attributes (e : element) : gmap string string :=
  match e with Element _ a _ => a end.

Definition children (e : element) : list element :=
  match e with Element _ _ k => k end.

(** [e.getAttribute(name)]: the value, or null. *)
Definition getAttribute (e : element) (name : string) : option string :=
  attributes e !! name.

(** [e.hasAttribute(name)] *)
Definition hasAttribute (e : element) (name : string) : bool :=
  match attributes e !! name with Some _ => true | None => false end.

(** The element and all its descendants, in document order (pre-order). *)
Fixpoint elements (e : element) : list element :=
  match e with
  | Element _ _ kids =>
      e :: (fix all (l : list element) : list element :=
              match l with
              | [] => []
              | k :: l' => elements k ++ all l'
              end) kids
  end.

(** [doc.querySelectorAll(tag)] for a type selector, on the document whose
    root element is [root]. *)
Definition querySelectorAll (root : element) (tag : string) : list element :=
  List.filter (fun e => String.eqb (localName e) tag) (elements root).

End DOM.

(** ** Scene-graph nodes (external Konva constructors) *)

Module Konva.

Import JS.

Module Group.
Record config : Type := {
  x : number;
  y : number;
  offsetX : number;
  offsetY : number;
  scaleX : number;
  scaleY : number
}.
End Group.

Module Path.
Record config : Type := {
  data : string;
  fill : option string;
  stroke : option string;
  strokeWidth : option number
}.
End Path.

Module Rect.
Record config : Type := {
  x : number;
  y : number;
  width : number;
  height : number;
  fillLinearGradientStartPoint : number * number;
  fillLinearGradientEndPoint : number * number;
  fillLinearGradientColorStops : list (number + string);
  stroke : string;
  cornerRadius : list number;
  strokeWidth : number;
  shadowColor : string;
  shadowBlur : number;
  shadowOffset : number * number;
  shadowOpacity : number
}.
End Rect.

Module Line.
Record config : Type := {
  points : list number;
  stroke : string;
  strokeWidth : number;
  lineCap : string
}.
End Line.

Inductive Node : Type :=
  | NGroup (c : Group.config) (children : list Node)
  | NPath (c : Path.config)
  | NRect (c : Rect.config)
  | NLine (c : Line.config).

(** [group.add(node)] appends a child; on other nodes it is not defined
    and leaves them as they are. *)
Definition add (group node : Node) : Node :=
  match group with
  | NGroup c children => NGroup c (children ++ [node])
  | _ => group
  end.


End Konva.

(** ** [src/utils/documentIcon.ts]: [createSvgIcon] *)

Module SvgIcon.

Import JS DOM.
Local Open Scope string_scope.

Record CreateSvgIconArgs : Type := {
  x : number;
  y : number;
  svg : string;
  size : option number;
  fill : option string;
  stroke : option string;
  strokeWidth : option number
}.

(** *** Line 22: is [svg] a URL? *)

Definition lower (c : ascii) : ascii :=
  let n := N_of_ascii c in
  if ((65 <=? n) && (n <=? 90))%N then ascii_of_N (n + 32) else c.

(** The head of [s] matches the literal [p], ignoring case. *)
Fixpoint starts_with_ci (p s : list ascii) : option (list ascii) :=
  match p, s with
  | [], _ => Some s
  | a :: p', b :: s' =>
      if Ascii.eqb (lower a) (lower b) then starts_with_ci p' s' else None
  | _ :: _, [] => None
  end.

(** [/^https?:\/\//i] *)
Definition has_http_prefix (s : list ascii) : bool :=
  match starts_with_ci (list_ascii_of_string "http://") s,
        starts_with_ci (list_ascii_of_string "https://") s with
  | None, None => false
  | _, _ => true
  end.

(** [.] in a pattern: any code unit but a line terminator. *)
Definition is_line_terminator (c : ascii) : bool :=
  match N_of_ascii c with
  | 10 | 13 => true
  | _ => false
  end%N.

(** The second pattern of line 22 anchored at the head of [s]: [.svg] in any
    case, then the end of the string, or [?] and no line terminator up to
    the end of the string. *)
Definition svg_suffix_here (s : list ascii) : bool :=
  match starts_with_ci (list_ascii_of_string ".svg") s with
  | Some [] => true
  | Some ("?"%char :: q) => forallb (fun c => negb (is_line_terminator c)) q
  | _ => false
  end.

(** The same pattern at any position of [s]. *)
Fixpoint has_svg_suffix (s : list ascii) : bool :=
  svg_suffix_here s ||
  match s with
  | [] => false
  | _ :: s' => has_svg_suffix s'
  end.

Definition isUrl (svg : string) : bool :=
  has_http_prefix (list_ascii_of_string svg)
  || has_svg_suffix (list_ascii_of_string svg).

(** *** Lines 31 to 44: the source dimensions *)

Record ViewBox : Type := {
  vbX : number;
  vbY : number;
  vbW : number;
  vbH : number
}.

(** Line 37: [vbAttr.trim().split(/\s+|,/).map(Number)] *)
Definition nums (vbAttr : string) : list number :=
  map Number (split_ws_or_comma (trim (list_ascii_of_string vbAttr))).

(** Lines 31 to 39: the four variables start at 0 and are overwritten when
    the attribute is a non-empty string. *)
Definition readViewBox (svgEl : element) : ViewBox :=
  let zeros := {| vbX := Fin 0; vbY := Fin 0; vbW := Fin 0; vbH := Fin 0 |} in
  match getAttribute svgEl "viewBox" with
  | Some vbAttr =>
      if truthy_string vbAttr then
        match nums vbAttr with
        | [n0; n1; n2; n3] => {| vbX := n0; vbY := n1; vbW := n2; vbH := n3 |}
        | _ => zeros
        end
      else zeros
  | None => zeros
  end.

(** [Number(svgEl.getAttribute(name) || 128)] *)
Definition attributeOr128 (svgEl : element) (name : string) : number :=
  match getAttribute svgEl name with
  | Some s => if truthy_string s then Number s else of_Z 128
  | None => of_Z 128
  end.

(** Lines 40 to 44. *)
Definition sourceDimensions (svgEl : element) : ViewBox :=
  let vb := readViewBox svgEl in
  if negb (truthy_number (vbW vb)) || negb (truthy_number (vbH vb)) then
    {| vbX := vbX vb; vbY := vbY vb;
       vbW := attributeOr128 svgEl "width";
       vbH := attributeOr128 svgEl "height" |}
  else vb.

(** Line 20: [size = 18] *)
Definition sizeOf (args : CreateSvgIconArgs) : number :=
  default (of_Z 18) (size args).

(** Line 47. *)
Definition scaleOf (size : number) (vb : ViewBox) : number :=
  div size (Math_max (vbW vb) (vbH vb)).

(** Lines 49 to 57. *)
Definition newGroup (args : CreateSvgIconArgs) (vb : ViewBox) : Konva.Node :=
  let scale := scaleOf (sizeOf args) vb in
  Konva.NGroup
    {| Konva.Group.x := x args;
       Konva.Group.y := y args;
       Konva.Group.offsetX := vbX vb;
       Konva.Group.offsetY := vbY vb;
       Konva.Group.scaleX := scale;
       Konva.Group.scaleY := scale |}
    [].

(** *** Lines 60 to 78: one Path node per [<path>] *)

(** [a ?? b] *)
Definition nullish {A : Type} (a b : option A) : option A :=
  match a with
  | Some v => Some v
  | None => b
  end.

(** Lines 73 and 74: [v && v !== 'none' ? v : undefined] *)
Definition paint (v : option string) : option string :=
  match v with
  | Some s => if truthy_string s && negb (String.eqb s "none") then Some s else None
  | None => None
  end.

(** [Number(v)] on a string or null. *)
Definition NumberOfAttr (v : option string) : number :=
  match v with
  | Some s => Number s
  | None => Fin 0
  end.

(** Lines 66 to 76, for a path [p] whose data is [d]. *)
Definition newPath (args : CreateSvgIconArgs) (p : element) (d : string)
  : Konva.Node :=
  let pathFill := nullish (fill args) (getAttribute p "fill") in
  let pathStroke := nullish (stroke args) (getAttribute p "stroke") in
  let sw :=
    nullish (strokeWidth args)
      (if hasAttribute p "stroke-width"
       then Some (NumberOfAttr (getAttribute p "stroke-width"))
       else None) in
  Konva.NPath
    {| Konva.Path.data := d;
       Konva.Path.fill := paint pathFill;
       Konva.Path.stroke := paint pathStroke;
       Konva.Path.strokeWidth := sw |}.

(** Lines 61 to 78: the loop over [paths], adding to [group]. *)
Fixpoint addPaths (args : CreateSvgIconArgs) (group : Konva.Node)
  (paths : list element) : Konva.Node :=
  match paths with
  | [] => group
  | p :: rest =>
      match getAttribute p "d" with
      | Some d =>
          if truthy_string d
          then addPaths args (Konva.add group (newPath args p d)) rest
          else addPaths args group rest
      | None => addPaths args group rest
      end
  end.

(** Lines 28 to 80: everything after the document is parsed. [svgEl] is
    [doc.documentElement]. *)
Definition iconOfDocument (args : CreateSvgIconArgs) (svgEl : element)
  : list Konva.Node :=
  let vb := sourceDimensions svgEl in
  let group := newGroup args vb in
  let paths := querySelectorAll svgEl "path" in
  [addPaths args group paths].

Section Collaborators.

(** [fetch(url).then(r => r.text())]; [None] when the promise rejects. *)
Variable fetch : string -> option string.

(** [new DOMParser().parseFromString(text, 'image/svg+xml')], as the
    document's root element. *)
Variable parseFromString : string -> element.

(** Lines 20 to 81; [None] when the returned promise rejects. *)
Definition createSvgIcon (args : CreateSvgIconArgs)
  : option (list Konva.Node) :=
  let svgText := if isUrl (svg args) then fetch (svg args) else Some (svg args) in
  match svgText with
  | Some text => Some (iconOfDocument args (parseFromString text))
  | None => None
  end.

End Collaborators.

End SvgIcon.

(** ** [src/utils/documentIcon.ts]: [createDocumentIcon] *)

Module DocIcon.

Import JS.
Local Open Scope string_scope.

Record Args : Type := {
  x : number;
  y : number;
  fill : option string;
  stroke : option string;
  strokeWidth : option number;
  cornerSize : option number
}.

(** Lines 98 to 103. *)
Definition width : number := of_Z 16.
Definition height : number := of_Z 16.





End DocIcon.

(** ** [src/components/paragraph/index.tsx]: [ExpandableParagraph] *)

Module Paragraph.

Import JS.
Local Open Scope string_scope.

Record Props : Type := {
  text : string;
  rows : option number;
  moreLabel : option string;
  lessLabel : option string
}.

(** Line 10: the defaults of the destructured props. *)
Definition rowsOf (p : Props) : number := default (of_Z 3) (rows p).
Definition moreLabelOf (p : Props) : string := default "More" (moreLabel p).
Definition lessLabelOf (p : Props) : string := default "Less" (lessLabel p).

(** Lines 11 and 12: the two [useState] cells. *)
Record State : Type := {
  expanded : bool;
  isOverflowing : bool
}.


(** What [measureOverflow] reads from the element [textRef.current]:
    [getComputedStyle(el).lineHeight] and [el.scrollHeight] (an integer). *)
Record Measured : Type := {
  lineHeight : string;
  scrollHeight : Z
}.

(** Lines 35 and 36. *)
Definition lineHeightOf (el : Measured) : number :=
  parseFloat (if truthy_string (lineHeight el) then lineHeight el else "22").

Definition maxHeight (p : Props) (el : Measured) : number :=
  mul (lineHeightOf el) (rowsOf p).

(** Line 38. *)
Definition isOver (p : Props) (el : Measured) : bool :=
  gtb (of_Z (scrollHeight el)) (add (maxHeight p el) (of_Z 1)).

(** Lines 30 to 40; [el] is [textRef.current], [None] when it is null. *)
Definition measureOverflow (p : Props) (el : option Measured) (s : State)
  : State :=
  match el with
  | None => s
  | Some m => {| expanded := expanded s; isOverflowing := isOver p m |}
  end.

(** Line 42: [setExpanded(prev => !prev)] *)
Definition toggleExpanded (s : State) : State :=
  {| expanded := negb (expanded s); isOverflowing := isOverflowing s |}.

(** Lines 44 to 69: what is rendered. [lineClamp] is [None] for ['unset'];
    [affordance] is the label of the link, [None] when it is not rendered. *)
Record View : Type := {
  lineClamp : option number;
  affordance : option string
}.

Definition render (p : Props) (s : State) : View :=
  {| lineClamp :=
       if negb (expanded s) && isOverflowing s then Some (rowsOf p) else None;
     affordance :=
       if isOverflowing s
       then Some (if negb (expanded s) then moreLabelOf p else lessLabelOf p)
       else None |}.

(** What can happen to a mounted widget: the resize observer or the layout
    effect measures (lines 20 to 25), or the user clicks the link. *)
Inductive event : Type :=
  | Measure (el : option Measured)
  | Click.

(** A click reaches [toggleExpanded] only through the link of line 64,
    which exists only while [isOverflowing] holds. *)
Definition step (p : Props) (s : State) (ev : event) : State :=
  match ev with
  | Measure el => measureOverflow p el s
  | Click => if isOverflowing s then toggleExpanded s else s
  end.

Definition run (p : Props) (s : State) (evs : list event) : State :=
  fold_left (step p) evs s.

End Paragraph.

(** ** The rules of the specification, written as functions

    These follow the words of the specification, not the source; the
    theorems below compare them with the embedding of the source. *)

Module Rules.

Import JS DOM.
Local Open Scope string_scope.

(** Section 4.4 as worded: "override if provided, else the path's own value
    if present and not the literal value meaning no paint, else unset". *)
Definition spec_paint (override declared : option string) : option string :=
  match override with
  | Some o => Some o
  | None =>
      match declared with
      | Some d => if String.eqb d "none" then None else Some d
      | None => None
      end
  end.

(** The literal "none" and the empty string both stand for no paint. *)
Definition no_paint (s : string) : bool :=
  String.eqb s "" || String.eqb s "none".

(** The same precedence, with the value chosen (from the override or from
    the path) normalised to unset when it stands for no paint. *)
Definition spec_paint_normalised (override declared : option string)
  : option string :=
  match override with
  | Some o => if no_paint o then None else Some o
  | None =>
      match declared with
      | Some d => if no_paint d then None else Some d
      | None => None
      end
  end.

(** Section 4.4: "override.strokeWidth if provided, else the path's own if
    the source declared one, else unset". *)
Definition spec_strokeWidth (override : option number)
  (declared : option string) : option number :=
  match override with
  | Some w => Some w
  | None =>
      match declared with
      | Some s => Some (Number s)
      | None => None
      end
  end.

(** Section 4.2, step 3: a path is kept when it has a [d] attribute. *)
Definition spec_has_d (p : element) : bool := hasAttribute p "d".

(** A path is kept when it has a [d] attribute that is not empty. *)
Definition has_data (p : element) : bool :=
  match getAttribute p "d" with
  | Some d => truthy_string d
  | None => false
  end.

Definition data_of (p : element) : string := default "" (getAttribute p "d").

(** Section 4.2, step 2: each of [width] and [height] defaults to 128 "if
    unparsable or missing". *)
Definition spec_dimension (attr : option string) : number :=
  match attr with
  | Some s => match Number s with NaN => of_Z 128 | v => v end
  | None => of_Z 128
  end.

(** A dimension defaults to 128 when the attribute is missing or empty. *)
Definition dimension_or_128 (attr : option string) : number :=
  match attr with
  | Some s => if String.eqb s "" then of_Z 128 else Number s
  | None => of_Z 128
  end.

(** A character that the separator pattern of line 37 can match. *)
Definition is_separator_char (c : ascii) : bool :=
  is_whitespace c || Ascii.eqb c ","%char.

(** A token: at least one character, none of them white space or a comma. *)
Definition is_token (t : list ascii) : bool :=
  match t with
  | [] => false
  | _ => forallb (fun c => negb (is_separator_char c)) t
  end.

(** A single separator: one comma, or a run of white space. *)
Definition is_single_separator (s : list ascii) : bool :=
  match s with
  | [] => false
  | [c] => is_separator_char c
  | _ => forallb is_whitespace s
  end.

(** The viewBox is usable when the width and the height read from it are
    both nonzero and not NaN (the test of line 40). *)
Definition viewBox_usable (svgEl : element) : bool :=
  truthy_number (SvgIcon.vbW (SvgIcon.readViewBox svgEl))
  && truthy_number (SvgIcon.vbH (SvgIcon.readViewBox svgEl)).

(** The node [n] made for the path [p] carries the path's data and the
    styles resolved by the normalised precedence. *)
Definition styled (args : SvgIcon.CreateSvgIconArgs) (p : element)
  (n : Konva.Node) : Prop :=
  exists c : Konva.Path.config,
    n = Konva.NPath c
    /\ Konva.Path.data c = data_of p
    /\ Konva.Path.fill c =
       spec_paint_normalised (SvgIcon.fill args) (getAttribute p "fill")
    /\ Konva.Path.stroke c =
       spec_paint_normalised (SvgIcon.stroke args) (getAttribute p "stroke")
    /\ Konva.Path.strokeWidth c =
       spec_strokeWidth (SvgIcon.strokeWidth args)
         (getAttribute p "stroke-width").

End Rules.

(** ** Sample documents and arguments *)

Module Samples.

Import JS DOM.
Local Open Scope string_scope.

Definition el (name : string) (attrs : list (string * string))
  (kids : list element) : element :=
  Element name (list_to_map attrs) kids.

(** [<svg/>] *)
Definition svg_bare : element := el "svg" [] [].




(** [<svg width="100px"/>] *)
Definition svg_width_px : element :=
  el "svg" [("width", "100px")] [].

(** [<svg viewBox="0, 0, 24, 24"/>] *)
Definition svg_comma_space : element :=
  el "svg" [("viewBox", "0, 0, 24, 24")] [].

(** [<svg> <path d=""/> <path d="M0 0"/> </svg>] *)
Definition svg_empty_d : element :=
  el "svg" [] [ el "path" [("d", "")] []; el "path" [("d", "M0 0")] [] ].

(** [<path d="M0 0" fill="red" stroke="none"/>] *)
Definition path_red : element :=
  el "path" [("d", "M0 0"); ("fill", "red"); ("stroke", "none")] [].

(** [<path d="M0 0" fill=""/>] *)
Definition path_empty_fill : element :=
  el "path" [("d", "M0 0"); ("fill", "")] [].

(** [{ x: 10, y: 20, svg }] with nothing else given. *)
Definition plain_args : SvgIcon.CreateSvgIconArgs :=
  {| SvgIcon.x := of_Z 10; SvgIcon.y := of_Z 20; SvgIcon.svg := "";
     SvgIcon.size := None; SvgIcon.fill := None; SvgIcon.stroke := None;
     SvgIcon.strokeWidth := None |}.

(** [{ x: 10, y: 20, svg, fill: '' }] *)
Definition empty_fill_args : SvgIcon.CreateSvgIconArgs :=
  {| SvgIcon.x := of_Z 10; SvgIcon.y := of_Z 20; SvgIcon.svg := "";
     SvgIcon.size := None; SvgIcon.fill := Some ""; SvgIcon.stroke := None;
     SvgIcon.strokeWidth := None |}.

(** [{ x: 10, y: 20, fill: '#f00', stroke: '#000', strokeWidth: 1,
       cornerSize: 3 }] *)
Definition doc_icon_args : DocIcon.Args :=
  {| DocIcon.x := of_Z 10; DocIcon.y := of_Z 20;
     DocIcon.fill := Some "#f00"; DocIcon.stroke := Some "#000";
     DocIcon.strokeWidth := Some (of_Z 1); DocIcon.cornerSize := Some (of_Z 3) |}.

End Samples.

(** * Properties *)

(** ** Facts about numbers *)

Section NumberFacts.

Import JS.
Local Open Scope Qc_scope.












End NumberFacts.

(** ** Facts about [createSvgIcon] *)

Section SvgIconFacts.

Import JS DOM SvgIcon Rules.
Local Open Scope string_scope.

Variable args : CreateSvgIconArgs.

(** The loop adds, after the children already there, one Path node per
    path with data, in the order of the list. *)
Lemma addPaths_group (c : Konva.Group.config) (paths : list element) :
  forall ch : list Konva.Node,
    addPaths args (Konva.NGroup c ch) paths =
    Konva.NGroup c
      (ch ++ map (fun p => newPath args p (data_of p))
                 (List.filter has_data paths)).
Proof.
  induction paths as [|p rest IH]; intros ch; cbn [addPaths List.filter map].
  - now rewrite app_nil_r.
  - assert (Hd : has_data p = match getAttribute p "d" with
                              | Some d => truthy_string d
                              | None => false
                              end) by reflexivity.
    assert (Hv : data_of p = default "" (getAttribute p "d")) by reflexivity.
    destruct (getAttribute p "d") as [d|]; [|rewrite Hd; apply IH].
    destruct (truthy_string d); rewrite Hd; [|apply IH].
    cbn [Konva.add map]. rewrite Hv, IH, <- app_assoc. reflexivity.
Qed.

Lemma iconOfDocument_group (svgEl : element) :
  iconOfDocument args svgEl =
  [Konva.NGroup
     {| Konva.Group.x := x args;
        Konva.Group.y := y args;
        Konva.Group.offsetX := vbX (sourceDimensions svgEl);
        Konva.Group.offsetY := vbY (sourceDimensions svgEl);
        Konva.Group.scaleX := scaleOf (sizeOf args) (sourceDimensions svgEl);
        Konva.Group.scaleY := scaleOf (sizeOf args) (sourceDimensions svgEl) |}
     (map (fun p => newPath args p (data_of p))
          (List.filter has_data (querySelectorAll svgEl "path")))].
Proof.
  unfold iconOfDocument, newGroup. now rewrite addPaths_group.
Qed.

(** A viewBox attribute that yields four numbers is not the empty string. *)
Lemma nums_four_nonempty (vbAttr : string) (a b c d : number) :
  nums vbAttr = [a; b; c; d] -> truthy_string vbAttr = true.
Proof.
  destruct vbAttr; [discriminate | reflexivity].
Qed.

Lemma readViewBox_four (svgEl : element) (vbAttr : string) (a b c d : number) :
  getAttribute svgEl "viewBox" = Some vbAttr ->
  nums vbAttr = [a; b; c; d] ->
  readViewBox svgEl = {| vbX := a; vbY := b; vbW := c; vbH := d |}.
Proof.
  intros Hattr Hnums. unfold readViewBox.
  rewrite Hattr, (nums_four_nonempty _ _ _ _ _ Hnums), Hnums. reflexivity.
Qed.

Lemma readViewBox_absent (svgEl : element) :
  getAttribute svgEl "viewBox" = None ->
  readViewBox svgEl =
  {| vbX := Fin 0%Qc; vbY := Fin 0%Qc; vbW := Fin 0%Qc; vbH := Fin 0%Qc |}.
Proof. intros H. unfold readViewBox. now rewrite H. Qed.


(** [createSvgIcon] is [iconOfDocument] on the parsed markup: inline
    markup always yields a result, a URL yields one when the fetch does. *)
Lemma createSvgIcon_markup (fetch : string -> option string)
  (parseFromString : string -> element) :
  isUrl (svg args) = false ->
  createSvgIcon fetch parseFromString args =
  Some (iconOfDocument args (parseFromString (svg args))).
Proof. intros H. unfold createSvgIcon. now rewrite H. Qed.

Lemma createSvgIcon_url (fetch : string -> option string)
  (parseFromString : string -> element) :
  isUrl (svg args) = true ->
  createSvgIcon fetch parseFromString args =
  option_map (fun text => iconOfDocument args (parseFromString text))
             (fetch (svg args)).
Proof.
  intros H. unfold createSvgIcon. rewrite H.
  now destruct (fetch (svg args)).
Qed.

Lemma createSvgIcon_result (fetch : string -> option string)
  (parseFromString : string -> element) (nodes : list Konva.Node) :
  createSvgIcon fetch parseFromString args = Some nodes ->
  exists text : string, nodes = iconOfDocument args (parseFromString text).
Proof.
  unfold createSvgIcon.
  destruct (if isUrl (svg args) then fetch (svg args) else Some (svg args))
    as [text|]; [|discriminate].
  intros [= <-]. now exists text.
Qed.

End SvgIconFacts.

(** ** Facts about the split of the viewBox attribute *)

Section SplitFacts.

Import JS DOM SvgIcon Rules.

Lemma split_loop_plain (t rest : list ascii) :
  forallb (fun c => negb (is_separator_char c)) t = true ->
  forall (b : bool) (cur : list ascii),
    t <> [] \/ b = false ->
    split_loop b cur (t ++ rest) = split_loop false (rev t ++ cur) rest.
Proof.
  induction t as [|c t IH]; intros Hall b cur Hb.
  - destruct Hb as [Hb | ->]; [contradiction | reflexivity].
  - cbn [forallb] in Hall. apply andb_true_iff in Hall as [Hc Hall].
    unfold is_separator_char in Hc.
    apply negb_true_iff, orb_false_iff in Hc as [Hws Hcomma].
    cbn [app split_loop]. rewrite Hws, Hcomma.
    rewrite (IH Hall false (c :: cur)) by now right.
    cbn [rev]. now rewrite <- app_assoc.
Qed.

Lemma split_loop_token (t rest : list ascii) (b : bool) (cur : list ascii) :
  is_token t = true ->
  split_loop b cur (t ++ rest) = split_loop false (rev t ++ cur) rest.
Proof.
  intros Ht. apply split_loop_plain.
  - destruct t; [discriminate | exact Ht].
  - left. destruct t; [discriminate | congruence].
Qed.

Lemma split_loop_ws_run (w rest : list ascii) :
  forallb is_whitespace w = true ->
  split_loop true [] (w ++ rest) = split_loop true [] rest.
Proof.
  induction w as [|c w IH]; [reflexivity|].
  cbn [forallb]. intros [Hc Hw]%andb_true_iff.
  cbn [app split_loop]. rewrite Hc. now apply IH.
Qed.

Lemma split_loop_separator (s rest cur : list ascii) :
  is_single_separator s = true ->
  exists b : bool,
    split_loop false cur (s ++ rest) =
    string_of_list_ascii (rev cur) :: split_loop b [] rest.
Proof.
  destruct s as [|c s]; [discriminate|].
  destruct (is_whitespace c) eqn:Hc.
  - intros Hs. exists true. cbn [app split_loop]. rewrite Hc. f_equal.
    apply split_loop_ws_run.
    destruct s as [|d s]; [reflexivity|].
    cbn [is_single_separator forallb] in Hs.
    now apply andb_true_iff in Hs as [_ Hs].
  - destruct s as [|d s].
    + cbn [is_single_separator]. unfold is_separator_char. rewrite Hc.
      cbn [orb]. intros Hcomma. exists false.
      cbn [app split_loop]. now rewrite Hc, Hcomma.
    + cbn [is_single_separator forallb]. rewrite Hc. discriminate.
Qed.

(** Four tokens with a single separator between each two give four pieces. *)
Lemma split_four_tokens (t0 s1 t1 s2 t2 s3 t3 : list ascii) :
  is_token t0 = true -> is_token t1 = true ->
  is_token t2 = true -> is_token t3 = true ->
  is_single_separator s1 = true -> is_single_separator s2 = true ->
  is_single_separator s3 = true ->
  split_ws_or_comma (t0 ++ s1 ++ t1 ++ s2 ++ t2 ++ s3 ++ t3) =
  map string_of_list_ascii [t0; t1; t2; t3].
Proof.
  intros H0 H1 H2 H3 S1 S2 S3. unfold split_ws_or_comma.
  rewrite (split_loop_token t0) by assumption.
  destruct (split_loop_separator s1 (t1 ++ s2 ++ t2 ++ s3 ++ t3) (rev t0 ++ []) S1)
    as [b1 ->].
  rewrite (split_loop_token t1) by assumption.
  destruct (split_loop_separator s2 (t2 ++ s3 ++ t3) (rev t1 ++ []) S2)
    as [b2 ->].
  rewrite (split_loop_token t2) by assumption.
  destruct (split_loop_separator s3 t3 (rev t2 ++ []) S3) as [b3 ->].
  rewrite <- (app_nil_r t3) at 1.
  rewrite (split_loop_token t3) by assumption.
  cbn [split_loop map]. now rewrite !app_nil_r, !rev_involutive.
Qed.

Lemma token_head (t : list ascii) :
  is_token t = true ->
  exists c t', t = c :: t' /\ is_whitespace c = false.
Proof.
  destruct t as [|c t']; [discriminate|]. cbn [is_token forallb].
  intros [Hc _]%andb_true_iff. exists c, t'. split; [reflexivity|].
  unfold is_separator_char in Hc.
  now apply negb_true_iff, orb_false_iff in Hc as [Hc _].
Qed.

Lemma token_rev (t : list ascii) : is_token t = true -> is_token (rev t) = true.
Proof.
  intros Ht.
  assert (Hall : forallb (fun c => negb (is_separator_char c)) (rev t) = true).
  { apply forallb_forall. intros c Hin. apply in_rev in Hin.
    destruct t; [discriminate|].
    exact (proj1 (forallb_forall _ _) Ht c Hin). }
  destruct (rev t) eqn:E; [|exact Hall].
  apply (f_equal (@rev ascii)) in E. rewrite rev_involutive in E.
  subst t. discriminate.
Qed.

(** [trim] leaves alone a string that begins and ends with a token. *)
Lemma trim_between_tokens (t0 m t3 : list ascii) :
  is_token t0 = true -> is_token t3 = true ->
  trim (t0 ++ m ++ t3) = t0 ++ m ++ t3.
Proof.
  intros H0 H3. unfold trim.
  assert (Hstart : trimStart (t0 ++ m ++ t3) = t0 ++ m ++ t3).
  { destruct (token_head t0 H0) as (c & t0' & -> & Hc).
    cbn [app trimStart]. now rewrite Hc. }
  rewrite Hstart.
  assert (Hend : trimStart (rev (t0 ++ m ++ t3)) = rev (t0 ++ m ++ t3)).
  { rewrite !rev_app_distr.
    destruct (token_head (rev t3) (token_rev t3 H3)) as (d & r & -> & Hd).
    cbn [app trimStart]. now rewrite Hd. }
  rewrite Hend. apply rev_involutive.
Qed.

(** A viewBox attribute made of four tokens with a single separator (one
    comma, or a run of white space) between each two is read as the four
    numbers the tokens convert to. *)
Lemma readViewBox_single_separators
  (svgEl : element) (t0 s1 t1 s2 t2 s3 t3 : list ascii) :
  is_token t0 = true -> is_token t1 = true ->
  is_token t2 = true -> is_token t3 = true ->
  is_single_separator s1 = true -> is_single_separator s2 = true ->
  is_single_separator s3 = true ->
  getAttribute svgEl "viewBox" =
    Some (string_of_list_ascii (t0 ++ s1 ++ t1 ++ s2 ++ t2 ++ s3 ++ t3)) ->
  readViewBox svgEl =
    {| vbX := Number (string_of_list_ascii t0);
       vbY := Number (string_of_list_ascii t1);
       vbW := Number (string_of_list_ascii t2);
       vbH := Number (string_of_list_ascii t3) |}.
Proof.
  intros H0 H1 H2 H3 S1 S2 S3 Hattr.
  apply (readViewBox_four _ _ _ _ _ _ Hattr).
  unfold nums. rewrite list_ascii_of_string_of_list_ascii.
  replace (t0 ++ s1 ++ t1 ++ s2 ++ t2 ++ s3 ++ t3)
    with (t0 ++ (s1 ++ t1 ++ s2 ++ t2 ++ s3) ++ t3)
    by now rewrite <- !app_assoc.
  rewrite trim_between_tokens by assumption.
  rewrite <- !app_assoc.
  now rewrite split_four_tokens.
Qed.

End SplitFacts.

(** ** The claims *)

Section Claims.

Import JS DOM SvgIcon Rules Samples.
Local Open Scope string_scope.



(** *** C1: the dimensions used by the scale computation *)





Lemma attributeOr128_absent (svgEl : element) (name : string) :
  getAttribute svgEl name = None -> attributeOr128 svgEl name = of_Z 128.
Proof. intros H. unfold attributeOr128. now rewrite H. Qed.




(** *** C3: the styles of a Path node *)

Lemma truthy_string_eqb (s : string) :
  truthy_string s = negb (String.eqb s "").
Proof. destruct s; reflexivity. Qed.

Lemma paint_spec (override declared : option string) :
  paint (nullish override declared) = spec_paint_normalised override declared.
Proof.
  unfold paint, nullish, spec_paint_normalised, no_paint.
  destruct override as [o|]; [|destruct declared as [d|]; [|reflexivity]];
    rewrite truthy_string_eqb;
    match goal with
    | |- context [String.eqb ?s ""] =>
        destruct (String.eqb s ""); destruct (String.eqb s "none"); reflexivity
    end.
Qed.

Lemma spec_paint_normalised_painted (override declared : option string)
  (s : string) :
  spec_paint_normalised override declared = Some s -> no_paint s = false.
Proof.
  unfold spec_paint_normalised.
  destruct override as [o|]; [|destruct declared as [d|]; [|discriminate]];
    match goal with
    | |- context [no_paint ?v] =>
        destruct (no_paint v) eqn:E; [discriminate | now intros [= <-]]
    end.
Qed.

Lemma newPath_styled (args : CreateSvgIconArgs) (p : element) :
  styled args p (newPath args p (data_of p)).
Proof.
  unfold styled, newPath. eexists. split; [reflexivity|].
  cbn [Konva.Path.data Konva.Path.fill Konva.Path.stroke Konva.Path.strokeWidth].
  rewrite !paint_spec. repeat split.
  unfold spec_strokeWidth, nullish, hasAttribute, getAttribute, NumberOfAttr.
  destruct (strokeWidth args); [reflexivity|].
  destruct (attributes p !! "stroke-width"); reflexivity.
Qed.

(** C3, as stated, fails. With the override fill: '' on a path declaring
    fill="red", and with no override on a path declaring fill="", the rule
    of the specification gives the empty string; the node's fill is unset
    in both cases. *)
Lemma C3_counterexample :
  (exists c : Konva.Path.config,
     newPath empty_fill_args path_red "M0 0" = Konva.NPath c
     /\ Konva.Path.fill c = None
     /\ spec_paint (fill empty_fill_args) (getAttribute path_red "fill")
        = Some "")
  /\ (exists c : Konva.Path.config,
        newPath plain_args path_empty_fill "M0 0" = Konva.NPath c
        /\ Konva.Path.fill c = None
        /\ spec_paint (fill plain_args) (getAttribute path_empty_fill "fill")
           = Some "").
Proof.
  split; eexists; (split; [reflexivity|]); split; vm_compute; reflexivity.
Qed.

(** C3, amended. For every path that is drawn, the node made for it has
    fill and stroke resolved as: the caller override if provided, else the
    path's declared attribute, else unset, where the value so chosen,
    whether it comes from the override or from the path, is normalised to
    unset when it is the literal "none" or the empty string; so neither is
    ever passed to the node. The strokeWidth is the override if provided,
    else Number of the declared stroke-width if the path has one, else
    absent. *)
Theorem C3_style_precedence (args : CreateSvgIconArgs) (svgEl : element) :
  exists (c : Konva.Group.config) (children : list Konva.Node),
    iconOfDocument args svgEl = [Konva.NGroup c children]
    /\ Forall2 (styled args)
         (List.filter has_data (querySelectorAll svgEl "path")) children
    /\ Forall (fun n => forall pc, n = Konva.NPath pc ->
                 Konva.Path.fill pc <> Some "none"
                 /\ Konva.Path.fill pc <> Some ""
                 /\ Konva.Path.stroke pc <> Some "none"
                 /\ Konva.Path.stroke pc <> Some "") children.
Proof.
  rewrite iconOfDocument_group. eexists _, _. split; [reflexivity|].
  set (paths := List.filter has_data (querySelectorAll svgEl "path")).
  split.
  - induction paths as [|p rest IH]; constructor; auto using newPath_styled.
  - apply Forall_forall. intros n Hin pc ->.
    apply list_elem_of_In, in_map_iff in Hin as (p & Hp & _).
    destruct (newPath_styled args p) as (c & Hc & _ & Hf & Hs & _).
    rewrite Hc in Hp. injection Hp as ->.
    repeat split; intros E.
    + rewrite Hf in E. now apply spec_paint_normalised_painted in E.
    + rewrite Hf in E. now apply spec_paint_normalised_painted in E.
    + rewrite Hs in E. now apply spec_paint_normalised_painted in E.
    + rewrite Hs in E. now apply spec_paint_normalised_painted in E.
Qed.

(** *** C4: the fallback to the width and height attributes *)

Lemma attributeOr128_rule (svgEl : element) (name : string) :
  attributeOr128 svgEl name = dimension_or_128 (getAttribute svgEl name).
Proof.
  unfold attributeOr128, dimension_or_128.
  destruct (getAttribute svgEl name) as [s|]; [|reflexivity].
  rewrite truthy_string_eqb. now destruct (String.eqb s "").
Qed.

(** C4, as stated, fails. The root [<svg width="100px"/>] has no viewBox,
    and its width does not parse as a number: the width used is NaN, not
    128 as the rule of the specification has it, and so is the scale. *)
Lemma C4_counterexample :
  viewBox_usable svg_width_px = false
  /\ vbW (sourceDimensions svg_width_px) = NaN
  /\ spec_dimension (getAttribute svg_width_px "width") = of_Z 128
  /\ vbH (sourceDimensions svg_width_px) = of_Z 128
  /\ scaleOf (sizeOf plain_args) (sourceDimensions svg_width_px) = NaN.
Proof.
  repeat split; vm_compute; repeat f_equal; apply Qc_is_canon; reflexivity.
Qed.

(** C4, amended. When the root has no usable viewBox, the width and the
    height attributes are used instead, each defaulting independently to
    128 when it is missing or empty, and converted with Number otherwise
    (so an attribute that does not parse as a number gives NaN). Markup
    with no viewBox and no width and height attributes yields offsets 0
    and 0, a 128 by 128 view box, and scale = size / 128. *)
Theorem C4_fallback_dimensions (args : CreateSvgIconArgs) (svgEl : element) :
  (viewBox_usable svgEl = false ->
     vbW (sourceDimensions svgEl)
       = dimension_or_128 (getAttribute svgEl "width")
     /\ vbH (sourceDimensions svgEl)
       = dimension_or_128 (getAttribute svgEl "height"))
  /\ (getAttribute svgEl "viewBox" = None ->
      getAttribute svgEl "width" = None ->
      getAttribute svgEl "height" = None ->
      sourceDimensions svgEl =
        {| vbX := of_Z 0; vbY := of_Z 0; vbW := of_Z 128; vbH := of_Z 128 |}
      /\ exists children : list Konva.Node,
           iconOfDocument args svgEl =
           [Konva.NGroup
              {| Konva.Group.x := x args;
                 Konva.Group.y := y args;
                 Konva.Group.offsetX := of_Z 0;
                 Konva.Group.offsetY := of_Z 0;
                 Konva.Group.scaleX := div (sizeOf args) (of_Z 128);
                 Konva.Group.scaleY := div (sizeOf args) (of_Z 128) |}
              children]).
Proof.
  split.
  - unfold viewBox_usable, sourceDimensions. intros Hu.
    apply andb_false_iff in Hu.
    assert (Hc : negb (truthy_number (vbW (readViewBox svgEl)))
                 || negb (truthy_number (vbH (readViewBox svgEl))) = true).
    { destruct Hu as [-> | ->]; [reflexivity | apply orb_true_r]. }
    rewrite Hc. cbn [vbW vbH]. now rewrite !attributeOr128_rule.
  - intros Hvb Hw Hh.
    assert (Hd : sourceDimensions svgEl =
        {| vbX := of_Z 0; vbY := of_Z 0; vbW := of_Z 128; vbH := of_Z 128 |}).
    { unfold sourceDimensions. rewrite (readViewBox_absent _ Hvb).
      cbn [vbW vbH vbX vbY].
      now rewrite !attributeOr128_absent by assumption. }
    split; [exact Hd|].
    rewrite iconOfDocument_group, Hd. eexists. reflexivity.
Qed.

Lemma C4_fallback_dimensions_witness :
  (vbW (sourceDimensions svg_width_px) = Number "100px"
   /\ vbH (sourceDimensions svg_width_px) = of_Z 128)
  /\ sourceDimensions svg_bare =
       {| vbX := of_Z 0; vbY := of_Z 0; vbW := of_Z 128; vbH := of_Z 128 |}.
Proof.
  split.
  - apply (proj1 (C4_fallback_dimensions plain_args svg_width_px)).
    vm_compute. reflexivity.
  - apply (proj2 (C4_fallback_dimensions plain_args svg_bare));
      vm_compute; reflexivity.
Defined.

(** *** C5: the viewBox attribute *)

(** C5, at the attribute "0, 0, 24, 24". The four numbers are separated
    by a comma followed by a space; the split yields seven pieces, the
    empty ones between each comma and the space after it included, so the
    four variables stay 0 and the view box falls back to 128 by 128. The
    same numbers separated by single commas or by runs of spaces are read
    as minX, minY, width and height ([readViewBox_single_separators] has
    the general statement). *)
Lemma C5_comma_then_space :
  split_ws_or_comma (trim (list_ascii_of_string "0, 0, 24, 24"))
    = ["0"; ""; "0"; ""; "24"; ""; "24"]
  /\ length (nums "0, 0, 24, 24") = 7
  /\ readViewBox svg_comma_space =
       {| vbX := of_Z 0; vbY := of_Z 0; vbW := of_Z 0; vbH := of_Z 0 |}
  /\ sourceDimensions svg_comma_space =
       {| vbX := of_Z 0; vbY := of_Z 0; vbW := of_Z 128; vbH := of_Z 128 |}
  /\ nums "0,0,24,24" = [of_Z 0; of_Z 0; of_Z 24; of_Z 24]
  /\ nums " 0  0 24 24 " = [of_Z 0; of_Z 0; of_Z 24; of_Z 24].
Proof.
  repeat split; vm_compute; repeat f_equal; apply Qc_is_canon; reflexivity.
Qed.

(** *** C6: the children of the group *)

(** C6, as stated, fails. In [<svg> <path d=""/> <path d="M0 0"/> </svg>]
    both paths have a [d] attribute, and the group has one child. *)
Lemma C6_counterexample :
  length (List.filter spec_has_d (querySelectorAll svg_empty_d "path")) = 2
  /\ exists c child,
       iconOfDocument plain_args svg_empty_d = [Konva.NGroup c [child]].
Proof.
  split; [vm_compute; reflexivity|].
  rewrite iconOfDocument_group. eexists _, _. reflexivity.
Qed.

(** C6, amended. The one node returned is a group whose children are
    exactly the path elements of the document that have a non-empty [d]
    attribute, one Path node per such path carrying its [d], in document
    order; a path without [d], or with an empty one, is skipped and the
    others are kept. A document with no path element yields one group with
    no children. *)
Theorem C6_children_in_document_order
  (args : CreateSvgIconArgs) (svgEl : element) :
  exists (c : Konva.Group.config) (children : list Konva.Node),
    iconOfDocument args svgEl = [Konva.NGroup c children]
    /\ querySelectorAll svgEl "path"
       = List.filter (fun e => String.eqb (localName e) "path") (elements svgEl)
    /\ children = map (fun p => newPath args p (data_of p))
                      (List.filter has_data (querySelectorAll svgEl "path"))
    /\ Forall2 (fun p n => exists pc, n = Konva.NPath pc
                                      /\ getAttribute p "d" = Some (Konva.Path.data pc)
                                      /\ Konva.Path.data pc <> "")
         (List.filter has_data (querySelectorAll svgEl "path")) children
    /\ length children
       = length (List.filter has_data (querySelectorAll svgEl "path"))
    /\ (querySelectorAll svgEl "path" = [] -> children = []).
Proof.
  rewrite iconOfDocument_group. eexists _, _. split; [reflexivity|].
  split; [reflexivity|]. split; [reflexivity|].
  set (paths := querySelectorAll svgEl "path").
  split; [|split].
  - induction paths as [|p rest IH]; cbn [List.filter map]; [constructor|].
    destruct (has_data p) eqn:E; [|exact IH].
    cbn [map]. constructor; [|exact IH].
    eexists. split; [reflexivity|]. cbn [Konva.Path.data].
    unfold has_data in E. unfold data_of.
    destruct (getAttribute p "d") as [d|]; [|discriminate].
    split; [reflexivity|]. change (d <> ""). intros ->. discriminate.
  - now rewrite length_map.
  - intros ->. reflexivity.
Qed.

Lemma C6_children_in_document_order_witness :
  exists (c : Konva.Group.config),
    iconOfDocument plain_args svg_bare = [Konva.NGroup c []].
Proof.
  destruct (C6_children_in_document_order plain_args svg_bare)
    as (c & children & Hicon & _ & _ & _ & _ & Hnone).
  exists c. rewrite Hicon, Hnone; reflexivity.
Defined.

(** *** C7: the document icon *)










(** *** C8, C9, C10: the truncation widget *)







Lemma run_measures_expanded (p : Paragraph.Props) (evs : list Paragraph.event) :
  Forall (fun ev => ev <> Paragraph.Click) evs ->
  forall s : Paragraph.State,
    Paragraph.expanded (Paragraph.run p s evs) = Paragraph.expanded s.
Proof.
  unfold Paragraph.run.
  induction 1 as [|ev evs Hev _ IH]; intros s; cbn [fold_left]; [reflexivity|].
  rewrite IH. destruct ev as [[m|]|]; [reflexivity | reflexivity | contradiction].
Qed.

(** C9. A measurement never changes the expanded flag; it can change only
    isOverflowing. The more/less link is rendered exactly when
    isOverflowing holds. So when the widget is expanded and a measurement
    finds the content no longer overflowing, the link is gone and expanded
    is still true. A step of the widget that changes expanded is a click
    on the link, and any sequence of measurements leaves expanded as it
    was. *)
Theorem C9_measure_keeps_expanded (p : Paragraph.Props) (s : Paragraph.State) :
  (forall el : option Paragraph.Measured,
     Paragraph.expanded (Paragraph.measureOverflow p el s)
     = Paragraph.expanded s)
  /\ (Paragraph.affordance (Paragraph.render p s) = None
      <-> Paragraph.isOverflowing s = false)
  /\ (forall m : Paragraph.Measured,
        Paragraph.expanded s = true ->
        Paragraph.isOver p m = false ->
        let s' := Paragraph.measureOverflow p (Some m) s in
        Paragraph.isOverflowing s' = false
        /\ Paragraph.affordance (Paragraph.render p s') = None
        /\ Paragraph.expanded s' = true)
  /\ (forall ev : Paragraph.event,
        Paragraph.expanded (Paragraph.step p s ev) <> Paragraph.expanded s ->
        ev = Paragraph.Click /\ Paragraph.isOverflowing s = true)
  /\ (forall evs : list Paragraph.event,
        Forall (fun ev => ev <> Paragraph.Click) evs ->
        Paragraph.expanded (Paragraph.run p s evs) = Paragraph.expanded s).
Proof.
  split; [|split; [|split; [|split]]].
  - intros [m|]; reflexivity.
  - unfold Paragraph.render. cbn [Paragraph.affordance].
    destruct (Paragraph.isOverflowing s); split; congruence.
  - intros m He Hm s'. subst s'.
    cbn [Paragraph.measureOverflow Paragraph.render Paragraph.affordance
         Paragraph.isOverflowing Paragraph.expanded].
    rewrite Hm. auto.
  - intros [[m|]|] Hne; cbn [Paragraph.step Paragraph.measureOverflow
                             Paragraph.expanded] in Hne; try contradiction.
    destruct (Paragraph.isOverflowing s); [auto | contradiction].
  - intros evs Hevs. now apply run_measures_expanded.
Qed.

Lemma C9_measure_keeps_expanded_witness :
  let p := {| Paragraph.text := "lorem"; Paragraph.rows := None;
              Paragraph.moreLabel := None; Paragraph.lessLabel := None |} in
  let s := {| Paragraph.expanded := true; Paragraph.isOverflowing := true |} in
  let m := {| Paragraph.lineHeight := "22px"; Paragraph.scrollHeight := 44 |} in
  let s' := Paragraph.measureOverflow p (Some m) s in
  Paragraph.isOverflowing s' = false
  /\ Paragraph.affordance (Paragraph.render p s') = None
  /\ Paragraph.expanded s' = true.
Proof.
  intros p s m s'.
  apply (proj1 (proj2 (proj2 (C9_measure_keeps_expanded p s)))).
  - reflexivity.
  - vm_compute. reflexivity.
Defined.

(** C10. Toggling twice restores the state, and in particular the expanded
    flag; one toggle negates expanded and leaves isOverflowing, the only
    other component of the state, as it was. *)
Theorem C10_toggle_involution (s : Paragraph.State) :
  Paragraph.toggleExpanded (Paragraph.toggleExpanded s) = s
  /\ Paragraph.expanded (Paragraph.toggleExpanded (Paragraph.toggleExpanded s))
     = Paragraph.expanded s
  /\ Paragraph.expanded (Paragraph.toggleExpanded s)
     = negb (Paragraph.expanded s)
  /\ Paragraph.isOverflowing (Paragraph.toggleExpanded s)
     = Paragraph.isOverflowing s.
Proof.
  destruct s as [e o]. unfold Paragraph.toggleExpanded.
  cbn [Paragraph.expanded Paragraph.isOverflowing].
  rewrite negb_involutive. repeat split.
Qed.

End Claims.
